(** * CartoonBuilder: the molecule builder of [molecule-builder-app.py]

    A shallow embedding of the class [MoleculeBuilder]: its registries, the
    molecule it owns, the three mutating methods, and the drawing method
    [visualize_molecule], followed by the properties the specification
    states about them.

    Modelling choices.
    - Python [float] is IEEE 754 binary64, which is what Rocq's primitive
      floats are, so coordinates are [float] and the arithmetic of the
      source is kept as it is written ([+], [*], [-], [/]).  The small
      integer literals of the source ([0], [1], [-1], [2], [-2]) convert to
      floats exactly.
    - The four registries are Python dicts that the modelled methods only
      read by key and write by key: they are [gmap string _].
    - The two attachment maps are Python dicts that are iterated with
      [.items()], so their insertion order is observable: they are
      association lists kept in insertion order ([odict]).
    - Every [raise] site becomes one constructor of [Error]; a method is a
      function from the builder to a result and the builder it leaves
      behind. *)

From Stdlib Require Import PrimFloat.
From stdpp Require Import gmap strings list.

Local Open Scope string_scope.
Local Open Scope list_scope.

(** ** Data classes *)

Record MolecularComponent : Type := mkComponent {
  name : string;
  shape : string;
  color : string;
  label : string
}.

Record AttachmentPoint : Type := mkPoint {
  point_name : string;
  position : float * float
}.

(** An attached item is the tuple [(component, direction)]. *)
Definition Attachment : Type := MolecularComponent * string.

(** ** Insertion-ordered dictionaries *)

Section OrderedDict.
Context {V : Type}.

Definition odict : Type := list (string * V).

(** [d.get(k)] *)
Fixpoint od_get (k : string) (d : odict) : option V :=
  match d with
  | [] => None
  | (k', v) :: rest => if String.eqb k' k then Some v else od_get k rest
  end.

(** [k in d] *)
Definition od_mem (k : string) (d : odict) : bool :=
  match od_get k d with Some _ => true | None => false end.

(** [d[k] = v]: an existing key keeps its place, a new key goes last. *)
Fixpoint od_set (k : string) (v : V) (d : odict) : odict :=
  match d with
  | [] => [(k, v)]
  | (k', v') :: rest =>
      if String.eqb k' k then (k, v) :: rest else (k', v') :: od_set k v rest
  end.

(** [list(d.keys())] *)
Definition od_keys (d : odict) : list string := map fst d.
End OrderedDict.

Arguments odict V : clear implicits.

(** ** The molecule and the builder *)

(** [Molecule.attachment_points] is the very dict object that the builder
    holds as [self.attachment_points] (the constructor passes the reference),
    so the model keeps one store for both, in the builder. *)
Record Molecule : Type := mkMolecule {
  scaffold : MolecularComponent;
  attached_sugars : odict (list Attachment);
  attached_substituents : odict (list Attachment)
}.

Record MoleculeBuilder : Type := mkBuilder {
  scaffolds : gmap string MolecularComponent;
  sugars : gmap string MolecularComponent;
  substituents : gmap string MolecularComponent;
  attachment_points : gmap string AttachmentPoint;
  molecule : Molecule
}.

Definition set_scaffolds (f : gmap string MolecularComponent → gmap string MolecularComponent)
    (self : MoleculeBuilder) : MoleculeBuilder :=
  mkBuilder (f (scaffolds self)) (sugars self) (substituents self)
            (attachment_points self) (molecule self).

Definition set_sugars (f : gmap string MolecularComponent → gmap string MolecularComponent)
    (self : MoleculeBuilder) : MoleculeBuilder :=
  mkBuilder (scaffolds self) (f (sugars self)) (substituents self)
            (attachment_points self) (molecule self).

Definition set_substituents (f : gmap string MolecularComponent → gmap string MolecularComponent)
    (self : MoleculeBuilder) : MoleculeBuilder :=
  mkBuilder (scaffolds self) (sugars self) (f (substituents self))
            (attachment_points self) (molecule self).

Definition set_attachment_points (f : gmap string AttachmentPoint → gmap string AttachmentPoint)
    (self : MoleculeBuilder) : MoleculeBuilder :=
  mkBuilder (scaffolds self) (sugars self) (substituents self)
            (f (attachment_points self)) (molecule self).

Definition set_molecule (f : Molecule → Molecule) (self : MoleculeBuilder) : MoleculeBuilder :=
  mkBuilder (scaffolds self) (sugars self) (substituents self)
            (attachment_points self) (f (molecule self)).

Definition with_scaffold (c : MolecularComponent) (m : Molecule) : Molecule :=
  mkMolecule c (attached_sugars m) (attached_substituents m).

Definition with_attached_sugars (d : odict (list Attachment)) (m : Molecule) : Molecule :=
  mkMolecule (scaffold m) d (attached_substituents m).

Definition with_attached_substituents (d : odict (list Attachment)) (m : Molecule) : Molecule :=
  mkMolecule (scaffold m) (attached_sugars m) d.

(** ** Errors and the method monad *)

(** One constructor per [raise ValueError(...)] site of the class, named
    after the failure it reports, and [KeyError] for a subscript on a
    missing dict key. *)
Inductive Error : Type :=
| InvalidShape
| InvalidColor
| DuplicateAttachmentPoint
| UnknownAttachmentPoint
| UnknownComponent
| KeyError.

Inductive result (A : Type) : Type :=
| Ok (a : A)
| Raise (e : Error).

Arguments Ok {A} a.
Arguments Raise {A} e.

(** A method call: it runs on the builder and leaves a builder behind, also
    when it raises. *)
Definition M (A : Type) : Type := MoleculeBuilder → result A * MoleculeBuilder.

Definition ret {A} (a : A) : M A := fun self => (Ok a, self).

Definition bind {A B} (c : M A) (k : A → M B) : M B :=
  fun self =>
    match c self with
    | (Ok a, self') => k a self'
    | (Raise e, self') => (Raise e, self')
    end.

Definition get_self : M MoleculeBuilder := fun self => (Ok self, self).

Definition lift {A} (r : result A) : M A := fun self => (r, self).

Notation "'let!' x ':=' c 'in' k" := (bind c (fun x => k))
  (at level 10, x name, c at level 100, k at level 200).

(** ** [MoleculeBuilder.__init__] *)

Definition default_scaffolds : gmap string MolecularComponent :=
  <["QA" := mkComponent "QA" "hexagon" "lime" "QA"]> (
  <["QA-OH" := mkComponent "QA" "hexagon" "limegreen" "QA-OH"]> (
  <["BA" := mkComponent "BA" "hexagon" "red" "BA"]> (
  <["P" := mkComponent "BA" "hexagon" "gray" "P"]> (
  <["P-Ac" := mkComponent "BA" "hexagon" "gainsboro" "P-Ac"]> (
  <["G" := mkComponent "BA" "hexagon" "magenta" "G"]> (
  <["E" := mkComponent "BA" "hexagon" "goldenrod" "E"]> (
  <["E-A" := mkComponent "BA" "hexagon" "gold" "E-A"]> ∅))))))).

Definition default_sugars : gmap string MolecularComponent :=
  <["XYL" := mkComponent "XYL" "circle" "#228B22" "Xyl"]> (
  <["FUC" := mkComponent "FUC" "circle" "#DC143C" "Fuc"]> (
  <["GLU" := mkComponent "GLU" "circle" "#9370DB" "Glu"]> (
  <["RHA" := mkComponent "RHA" "circle" "#FFD700" "Rha"]> (
  <["ARA" := mkComponent "RHA" "circle" "cyan" "Ara"]> (
  <["GAL" := mkComponent "RHA" "circle" "orange" "Gal"]> ∅))))).

Definition default_substituents : gmap string MolecularComponent :=
  <["H" := mkComponent "H" "circle" "none" "H"]> (
  <["Acyl" := mkComponent "Acyl" "circle" "none" "Ac"]> (
  <["OH" := mkComponent "OH" "circle" "none" "OH"]> (
  <["OHMeHex" := mkComponent "OHMeHex" "circle" "none" "OHMeHex"]> ∅))).

Definition default_attachment_points : gmap string AttachmentPoint :=
  <["Zero" := mkPoint "Zero" (0, 0)%float]> (
  <["FRight" := mkPoint "FR" (1, 0)%float]> (
  <["FLeft" := mkPoint "FL" (-1, 0)%float]> (
  <["SRight" := mkPoint "FR" (2, 0)%float]> (
  <["SLeft" := mkPoint "FL" (-2, 0)%float]> ∅)))).

(** [self.scaffolds['QA']] is a literal of the constructor, so the subscript
    cannot fail there; the scaffold is written out. *)
Definition MoleculeBuilder_init : MoleculeBuilder :=
  mkBuilder default_scaffolds default_sugars default_substituents
            default_attachment_points
            (mkMolecule (mkComponent "QA" "hexagon" "lime" "QA") [] []).

(** ** [add_attachment_point] *)

Definition add_attachment_point (name0 : string) (position0 : float * float) : M unit :=
  fun self =>
    match attachment_points self !! name0 with
    | Some _ => (Raise DuplicateAttachmentPoint, self)
    | None =>
        (Ok tt, set_attachment_points (insert name0 (mkPoint name0 position0)) self)
    end.

(** ** [add_component] *)

Definition VALID_SHAPES : list string := ["hexagon"; "circle"].

(** [x in xs] on a list of strings. *)
Definition str_in (x : string) (xs : list string) : bool := existsb (String.eqb x) xs.

Section AddComponent.
(** Which color strings the check lets through is decided inside
    Matplotlib, not in this repository: it is a parameter, and the
    properties of [add_component] below hold for every value of it.
    [plot_without_data] further down is the value the program runs with. *)
Variable parses_named_or_hex : string → bool.

(** Modelled from the spec: the check [plt.plot(c=color)] runs inside
    Matplotlib, which is not part of this repository.  Section 4.1 of the
    specification gives the verdict it is meant to have: it passes when the
    color parses as a named or hex color value or equals the sentinel none,
    and raises [ValueError] otherwise. *)
Definition plot_accepts_color (color0 : string) : bool :=
  parses_named_or_hex color0 || String.eqb color0 "none".

Definition add_component (name0 shape0 color0 label0 category : string) : M unit :=
  fun self =>
    if negb (str_in shape0 VALID_SHAPES) then (Raise InvalidShape, self)
    else if negb (plot_accepts_color color0) then (Raise InvalidColor, self)
    else
      let component := mkComponent name0 shape0 color0 label0 in
      if String.eqb category "Sugar" then
        (Ok tt, set_sugars (insert name0 component) self)
      else if String.eqb category "Substituent" then
        (Ok tt, set_substituents (insert name0 component) self)
      else if String.eqb category "Scaffold" then
        (Ok tt, set_scaffolds (insert name0 component) self)
      else (Ok tt, self).
End AddComponent.

(** The check as the program runs it.  [plt.plot(c=color)] is called with
    no data: Matplotlib then builds no line, never parses [c] and never
    raises, so every color string passes and the [except ValueError] branch
    of [add_component] is never entered. *)
Definition plot_without_data : string → bool := fun _ => true.

(** ** [attach_component] *)

(** [d[k].append(x)]: the list stored under [k] grows in place; the
    subscript raises when [k] is missing. *)
Definition od_append (k : string) (x : Attachment) (d : odict (list Attachment))
    : result (odict (list Attachment)) :=
  match od_get k d with
  | Some l => Ok (od_set k (l ++ [x]) d)
  | None => Raise KeyError
  end.

(** The body of either branch of the final [if]:
    [if parent_point not in d: d[parent_point] = []] and then
    [d[parent_point].append((component, direction))]. *)
Definition store_attachment (parent_point : string) (x : Attachment)
    (d : odict (list Attachment)) : result (odict (list Attachment)) :=
  let d1 := if negb (od_mem parent_point d) then od_set parent_point [] d else d in
  od_append parent_point x d1.

Definition attach_component (parent_point component_name direction category : string)
    : M unit :=
  fun self =>
    match attachment_points self !! parent_point with
    | None => (Raise UnknownAttachmentPoint, self)
    | Some _ =>
        let component :=
          if String.eqb category "Sugar" then sugars self !! component_name
          else substituents self !! component_name in
        match component with
        | None => (Raise UnknownComponent, self)
        | Some component =>
            if String.eqb category "Sugar" then
              match store_attachment parent_point (component, direction)
                      (attached_sugars (molecule self)) with
              | Ok d => (Ok tt, set_molecule (with_attached_sugars d) self)
              | Raise e => (Raise e, self)
              end
            else
              match store_attachment parent_point (component, direction)
                      (attached_substituents (molecule self)) with
              | Ok d => (Ok tt, set_molecule (with_attached_substituents d) self)
              | Raise e => (Raise e, self)
              end
        end
    end.

(** ** Selecting the scaffold

    The form layer runs [builder.molecule.scaffold = builder.scaffolds[scaffold]]. *)
Definition set_scaffold (scaffold_name : string) : M unit :=
  fun self =>
    match scaffolds self !! scaffold_name with
    | Some c => (Ok tt, set_molecule (with_scaffold c) self)
    | None => (Raise KeyError, self)
    end.

(** ** Drawing *)

(** What the methods hand to Matplotlib, in call order.  The keyword
    arguments that are the same constant at every call are not recorded:
    [edgecolor="black"], [linewidth=2], [alpha=1.0], the box style
    ["round,pad=0.6,rounding_size=0.0"], and for the texts
    [ha='center'], [va='center'], [fontweight='bold'].

    What Matplotlib does with the calls is not modelled.  Its patch
    constructors raise [ValueError] on a [facecolor] they cannot parse, which
    [add_component] lets through: [draw_shape] below has no such path, so the
    model says which artists are asked for and in which order, and not
    whether Matplotlib completes the drawing for such a color.  The fields
    [xlim], [ylim] and [aspect] hold the arguments of the last [set_xlim],
    [set_ylim] and [set_aspect] calls; the later adjustment of the limits
    under [adjustable='datalim'] and [plt.tight_layout] is Matplotlib's, so
    they are not the limits of the figure as returned. *)
Inductive Artist : Type :=
| FancyBboxPatch (xy : float * float) (width height : float) (facecolor : string)
| Circle (xy : float * float) (radius : float) (facecolor : string)
| Text (x y : float) (s : string) (fontsize : nat).

Record Axes : Type := mkAxes {
  children : list Artist;
  xlim : float * float;
  ylim : float * float;
  aspect : string;
  axison : bool
}.

Record Figure : Type := mkFigure {
  figsize : float * float;
  axes : Axes;
  tight : bool
}.

(** [ax.add_patch], [ax.add_artist] and [ax.text] each put one more artist
    on the axes. *)
Definition add_child (a : Artist) (ax : Axes) : Axes :=
  mkAxes (children ax ++ [a]) (xlim ax) (ylim ax) (aspect ax) (axison ax).

(** The axes that [plt.subplots] returns. *)
Definition new_axes : Axes := mkAxes [] (0, 1)%float (0, 1)%float "auto" true.

#[local] Set Warnings "-inexact-float".

Definition draw_shape (shape_type : string) (ax : Axes) (position0 : float * float)
    (color0 label0 : string) : Axes :=
  if String.eqb shape_type "hexagon" then
    let width := 0.1%float in
    let height := 0.1%float in
    let rect :=
      FancyBboxPatch ((position0.1 - width / 2)%float, (position0.2 - height / 2)%float)
                     width height color0 in
    let ax := add_child rect ax in
    add_child (Text position0.1 position0.2 label0 13) ax
  else if String.eqb shape_type "circle" then
    let circle := Circle position0 0.5%float color0 in
    let ax := add_child circle ax in
    add_child (Text position0.1 position0.2 label0 8) ax
  else ax.

(** The dict literal of the two loops and its [.get(direction, (1, 0))]. *)
Definition direction_table : list (string * (float * float)) :=
  [ ("Right", (1, 0)%float);
    ("Left", (-1, 0)%float);
    ("Up", (0, 1)%float);
    ("Down", (0, -1)%float) ].

Definition direction_vector (direction : string) : float * float :=
  match od_get direction direction_table with
  | Some v => v
  | None => (1, 0)%float
  end.

(** [component_position] of the loop body.  [i] is the [enumerate] index the
    loop binds; the multiplier that used it is commented out in the
    source. *)
Definition component_position (point_position : float * float) (direction : string)
    (i : nat) : float * float :=
  let direction_vector := direction_vector direction in
  ((point_position.1 + direction_vector.1 * 1.0)%float,
   (point_position.2 + direction_vector.2 * 1.0)%float).

(** [for i, (component, direction) in enumerate(items)]: the inner loop, the
    same text for sugars and for substituents.  The subscript
    [self.attachment_points[point]] is evaluated once per item. *)
Fixpoint draw_items (points : gmap string AttachmentPoint) (point : string) (i : nat)
    (items : list Attachment) (ax : Axes) : result Axes :=
  match items with
  | [] => Ok ax
  | (component, direction) :: rest =>
      match points !! point with
      | None => Raise KeyError
      | Some ap =>
          let component_position := component_position (position ap) direction i in
          let ax := draw_shape (shape component) ax component_position
                               (color component) (label component) in
          draw_items points point (S i) rest ax
      end
  end.

(** [for point, items in d.items()]: the outer loop. *)
Fixpoint draw_attached (points : gmap string AttachmentPoint)
    (d : odict (list Attachment)) (ax : Axes) : result Axes :=
  match d with
  | [] => Ok ax
  | (point, items) :: rest =>
      match draw_items points point 0 items ax with
      | Ok ax => draw_attached points rest ax
      | Raise e => Raise e
      end
  end.

(** The arguments of [ax.set_xlim], [ax.set_ylim],
    [ax.set_aspect('equal', adjustable='datalim')] and [ax.axis('off')];
    [adjustable] is not recorded. *)
Definition finish_axes (ax : Axes) : Axes :=
  let buffer := 7%float in
  mkAxes (children ax) ((- buffer)%float, buffer) ((- buffer)%float, buffer) "equal" false.

(** [visualize_molecule].  The figure of the first [plt.subplots()] call is
    dropped at once and nothing is drawn on it; [all_positions] and
    [base_position] are computed and never read.  The method only reads
    [self]. *)
Definition visualize_molecule : M Figure :=
  let! self := get_self in
  let ax := new_axes in
  let scaffold_pos := (0, 0)%float in
  let scaffold0 := scaffold (molecule self) in
  let ax := draw_shape (shape scaffold0) ax scaffold_pos (color scaffold0) (label scaffold0) in
  let! ax := lift (draw_attached (attachment_points self)
                                 (attached_sugars (molecule self)) ax) in
  let! ax := lift (draw_attached (attachment_points self)
                                 (attached_substituents (molecule self)) ax) in
  ret (mkFigure (10, 4)%float (finish_axes ax) true).

(** ** The calls of the form layer *)

Inductive Call : Type :=
| AddAttachmentPoint (name0 : string) (position0 : float * float)
| AddComponent (name0 shape0 color0 label0 category : string)
| AttachComponent (parent_point component_name direction category : string)
| SetScaffold (scaffold_name : string)
| Visualize.

Definition ignore {A} (c : M A) : M unit := let! x := c in ret tt.

Definition call (parses_named_or_hex : string → bool) (c : Call) : M unit :=
  match c with
  | AddAttachmentPoint n p => add_attachment_point n p
  | AddComponent n s c l cat => add_component parses_named_or_hex n s c l cat
  | AttachComponent p n d cat => attach_component p n d cat
  | SetScaffold n => set_scaffold n
  | Visualize => ignore visualize_molecule
  end.

(** The builder after a call, whether the call returned or raised: the form
    layer catches the error and keeps the session's builder. *)
Definition after (parses_named_or_hex : string → bool) (c : Call)
    (self : MoleculeBuilder) : MoleculeBuilder :=
  snd (call parses_named_or_hex c self).

(** The builders a session can hold. *)
Inductive reachable (parses_named_or_hex : string → bool) : MoleculeBuilder → Prop :=
| reachable_init : reachable parses_named_or_hex MoleculeBuilder_init
| reachable_call self c :
    reachable parses_named_or_hex self →
    reachable parses_named_or_hex (after parses_named_or_hex c self).

(** * The vocabulary of the statements *)

(** A key that was never written reads as the empty sequence. *)
Definition sequence_at (k : string) (d : odict (list Attachment)) : list Attachment :=
  default [] (od_get k d).

(** [d'] is [d] with [x] put at the end of the sequence under [k]; the
    sequence is created when [k] is new, every other key is as it was, and the
    keys keep their order. *)
Definition appended_at (k : string) (x : Attachment) (d d' : odict (list Attachment))
    : Prop :=
  od_get k d' = Some (sequence_at k d ++ [x]) ∧
  (∀ q, q ≠ k → od_get q d' = od_get q d) ∧
  od_keys d' = od_keys d ++ (if od_mem k d then [] else [k]).

(** The registries and the scaffold of two builders agree. *)
Definition same_components (self self' : MoleculeBuilder) : Prop :=
  scaffolds self' = scaffolds self ∧
  sugars self' = sugars self ∧
  substituents self' = substituents self.

(** The registry and the attachment map that go with a category tag, for
    the two tags components are attached under. *)
Definition component_registry (category : string) (self : MoleculeBuilder)
    : gmap string MolecularComponent :=
  if String.eqb category "Sugar" then sugars self else substituents self.

Definition attachment_map (category : string) (m : Molecule) : odict (list Attachment) :=
  if String.eqb category "Sugar" then attached_sugars m else attached_substituents m.

Definition other_attachment_map (category : string) (m : Molecule)
    : odict (list Attachment) :=
  if String.eqb category "Sugar" then attached_substituents m else attached_sugars m.

(** The artists one [draw_shape] call adds. *)
Definition shape_artists (shape_type : string) (position0 : float * float)
    (color0 label0 : string) : list Artist :=
  if String.eqb shape_type "hexagon" then
    [ FancyBboxPatch ((position0.1 - 0.1 / 2)%float, (position0.2 - 0.1 / 2)%float)
                     0.1%float 0.1%float color0;
      Text position0.1 position0.2 label0 13 ]
  else if String.eqb shape_type "circle" then
    [ Circle position0 0.5%float color0;
      Text position0.1 position0.2 label0 8 ]
  else [].

Definition add_children (l : list Artist) (ax : Axes) : Axes :=
  mkAxes (children ax ++ l) (xlim ax) (ylim ax) (aspect ax) (axison ax).

(** The position the specification gives: the point's position plus the
    direction vector times one, with no index in it. *)
Definition resolved_position (point_position : float * float) (direction : string)
    : float * float :=
  ((point_position.1 + (direction_vector direction).1 * 1.0)%float,
   (point_position.2 + (direction_vector direction).2 * 1.0)%float).

(** What the inner loop draws for one attached item at a point. *)
Definition drawn_item (ap : AttachmentPoint) (x : Attachment) : list Artist :=
  shape_artists (shape x.1) (resolved_position (position ap) x.2) (color x.1) (label x.1).

(** Every key of an attachment map is a key of the point registry. *)
Definition registered (points : gmap string AttachmentPoint)
    (d : odict (list Attachment)) : Prop :=
  Forall (fun e => is_Some (points !! e.1)) d.

(** What the outer loop draws for one entry of an attachment map. *)
Definition drawn_entry (points : gmap string AttachmentPoint)
    (e : string * list Attachment) : list Artist :=
  match points !! e.1 with
  | Some ap => flat_map (drawn_item ap) e.2
  | None => []
  end.

(** ** Further vocabulary *)

(** The registry a category tag selects in [add_component]; any other tag
    selects none. *)
Definition category_registry (category : string)
    : option (MoleculeBuilder → gmap string MolecularComponent) :=
  if String.eqb category "Sugar" then Some sugars
  else if String.eqb category "Substituent" then Some substituents
  else if String.eqb category "Scaffold" then Some scaffolds
  else None.

(** A component whose shape [draw_shape] knows how to draw. *)
Definition drawable (c : MolecularComponent) : Prop :=
  shape c = "hexagon" ∨ shape c = "circle".

(** Every attachment of a map, in the order the loops meet them. *)
Definition attached_items (d : odict (list Attachment)) : list Attachment :=
  flat_map snd d.

(** An attachment map as the dict it stands for: no key twice, and no key
    with an empty sequence. *)
Definition tidy (d : odict (list Attachment)) : Prop :=
  NoDup (od_keys d) ∧ Forall (fun e => e.2 ≠ []) d.

(** Every shape the builder holds, in a registry, as the scaffold or
    attached, is one [draw_shape] draws. *)
Definition all_drawable (self : MoleculeBuilder) : Prop :=
  map_Forall (fun _ c => drawable c) (scaffolds self) ∧
  map_Forall (fun _ c => drawable c) (sugars self) ∧
  map_Forall (fun _ c => drawable c) (substituents self) ∧
  drawable (scaffold (molecule self)) ∧
  Forall (fun x => drawable x.1) (attached_items (attached_sugars (molecule self))) ∧
  Forall (fun x => drawable x.1) (attached_items (attached_substituents (molecule self))).

(** What one call can do to the builder, read off the assignments of the
    methods: nothing, one new attachment point, one registry entry written
    with a drawable shape, one attachment appended, or the scaffold
    replaced by a registered one. *)
Inductive step (self : MoleculeBuilder) : MoleculeBuilder → Prop :=
| step_none : step self self
| step_point name0 position0 :
    attachment_points self !! name0 = None →
    step self (set_attachment_points (insert name0 (mkPoint name0 position0)) self)
| step_sugar name0 c :
    drawable c →
    step self (set_sugars (insert name0 c) self)
| step_substituent name0 c :
    drawable c →
    step self (set_substituents (insert name0 c) self)
| step_scaffold_entry name0 c :
    drawable c →
    step self (set_scaffolds (insert name0 c) self)
| step_attach_sugar point name0 c direction :
    is_Some (attachment_points self !! point) →
    sugars self !! name0 = Some c →
    step self (set_molecule
                 (with_attached_sugars
                    (od_set point
                       (sequence_at point (attached_sugars (molecule self))
                        ++ [(c, direction)])
                       (attached_sugars (molecule self))))
                 self)
| step_attach_substituent point name0 c direction :
    is_Some (attachment_points self !! point) →
    substituents self !! name0 = Some c →
    step self (set_molecule
                 (with_attached_substituents
                    (od_set point
                       (sequence_at point (attached_substituents (molecule self))
                        ++ [(c, direction)])
                       (attached_substituents (molecule self))))
                 self)
| step_select name0 c :
    scaffolds self !! name0 = Some c →
    step self (set_molecule (with_scaffold c) self).

(** What a session's builder always satisfies. *)
Definition sound (self : MoleculeBuilder) : Prop :=
  registered (attachment_points self) (attached_sugars (molecule self)) ∧
  registered (attachment_points self) (attached_substituents (molecule self)) ∧
  tidy (attached_sugars (molecule self)) ∧
  tidy (attached_substituents (molecule self)) ∧
  all_drawable self.

(** * Properties *)

(** ** Ordered dictionaries *)

Section OrderedDictFacts.
Context {V : Type}.
Implicit Types (k : string) (v : V) (d : odict V).

Lemma od_get_set_eq k v d : od_get k (od_set k v d) = Some v.
Proof.
  induction d as [|[k' v'] d IH]; simpl.
  - by rewrite String.eqb_refl.
  - destruct (String.eqb k' k) eqn:E; simpl.
    + by rewrite String.eqb_refl.
    + by rewrite E.
Qed.

Lemma od_get_set_ne k q v d : q ≠ k → od_get q (od_set k v d) = od_get q d.
Proof.
  intros Hne. induction d as [|[k' v'] d IH]; simpl.
  - destruct (String.eqb k q) eqn:E; [|done].
    apply String.eqb_eq in E. congruence.
  - destruct (String.eqb k' k) eqn:E; simpl.
    + apply String.eqb_eq in E. subst k'.
      destruct (String.eqb k q) eqn:E'; [|done].
      apply String.eqb_eq in E'. congruence.
    + by rewrite IH.
Qed.

Lemma od_set_set k v w d : od_set k v (od_set k w d) = od_set k v d.
Proof.
  induction d as [|[k' v'] d IH]; simpl.
  - by rewrite String.eqb_refl.
  - destruct (String.eqb k' k) eqn:E; simpl.
    + by rewrite String.eqb_refl.
    + by rewrite E, IH.
Qed.

Lemma od_mem_true k d : od_mem k d = true ↔ is_Some (od_get k d).
Proof.
  unfold od_mem. destruct (od_get k d) as [v|]; split; intros H.
  - by exists v.
  - done.
  - done.
  - by destruct H.
Qed.

(** Writing a key keeps the order of the keys; a new key goes last. *)
Lemma od_keys_set k v d :
  od_keys (od_set k v d) = od_keys d ++ (if od_mem k d then [] else [k]).
Proof.
  unfold od_keys, od_mem. induction d as [|[k' v'] d IH]; simpl; [done|].
  destruct (String.eqb k' k) eqn:E; simpl.
  - apply String.eqb_eq in E. subst. by rewrite app_nil_r.
  - by rewrite IH.
Qed.

Lemma od_set_Forall (P : string * V → Prop) k v d :
  P (k, v) → Forall P d → Forall P (od_set k v d).
Proof.
  intros Hk Hd. induction Hd as [|[k' v'] d Hx Hd IH]; simpl.
  - by constructor.
  - destruct (String.eqb k' k); by constructor.
Qed.
End OrderedDictFacts.

Lemma store_attachment_run k x d :
  store_attachment k x d = Ok (od_set k (sequence_at k d ++ [x]) d).
Proof.
  unfold store_attachment, od_append, od_mem, sequence_at.
  destruct (od_get k d) as [l|] eqn:E; simpl.
  - by rewrite E.
  - by rewrite od_get_set_eq, od_set_set.
Qed.

Lemma od_set_appended_at k x d :
  appended_at k x d (od_set k (sequence_at k d ++ [x]) d).
Proof.
  split_and!.
  - apply od_get_set_eq.
  - intros q Hq. by apply od_get_set_ne.
  - apply od_keys_set.
Qed.

(** ** [attach_component], branch by branch *)

Lemma eqb_Sugar_false category : category ≠ "Sugar" → String.eqb category "Sugar" = false.
Proof. intros H. by apply String.eqb_neq. Qed.

Lemma attach_component_sugar self parent_point component_name direction :
  attach_component parent_point component_name direction "Sugar" self =
  match attachment_points self !! parent_point with
  | None => (Raise UnknownAttachmentPoint, self)
  | Some _ =>
      match sugars self !! component_name with
      | None => (Raise UnknownComponent, self)
      | Some c =>
          let d := attached_sugars (molecule self) in
          (Ok tt, set_molecule (with_attached_sugars
                    (od_set parent_point (sequence_at parent_point d ++ [(c, direction)]) d))
                    self)
      end
  end.
Proof.
  unfold attach_component. simpl.
  destruct (attachment_points self !! parent_point); [|done].
  destruct (sugars self !! component_name); [|done].
  by rewrite store_attachment_run.
Qed.

Lemma attach_component_not_sugar self parent_point component_name direction category :
  category ≠ "Sugar" →
  attach_component parent_point component_name direction category self =
  match attachment_points self !! parent_point with
  | None => (Raise UnknownAttachmentPoint, self)
  | Some _ =>
      match substituents self !! component_name with
      | None => (Raise UnknownComponent, self)
      | Some c =>
          let d := attached_substituents (molecule self) in
          (Ok tt, set_molecule (with_attached_substituents
                    (od_set parent_point (sequence_at parent_point d ++ [(c, direction)]) d))
                    self)
      end
  end.
Proof.
  intros Hcat. unfold attach_component. rewrite (eqb_Sugar_false _ Hcat).
  destruct (attachment_points self !! parent_point); [|done].
  destruct (substituents self !! component_name); [|done].
  by rewrite store_attachment_run.
Qed.

(** ** The attachment-point registry *)

(** C7. A second [add_attachment_point] under a name the registry already
    holds raises the duplicate error and leaves the builder, and so the entry
    stored under that name, as it was; under a fresh name the call returns
    and the registry holds a new point of that name and position under it,
    every other entry and the rest of the builder being untouched. *)
Theorem add_attachment_point_contract (self : MoleculeBuilder) (name0 : string)
    (position0 : float * float) :
  (∀ existing, attachment_points self !! name0 = Some existing →
     add_attachment_point name0 position0 self = (Raise DuplicateAttachmentPoint, self) ∧
     attachment_points (snd (add_attachment_point name0 position0 self)) !! name0
       = Some existing) ∧
  (attachment_points self !! name0 = None →
     ∃ self',
       add_attachment_point name0 position0 self = (Ok tt, self') ∧
       attachment_points self' !! name0 = Some (mkPoint name0 position0) ∧
       (∀ q, q ≠ name0 → attachment_points self' !! q = attachment_points self !! q) ∧
       same_components self self' ∧
       molecule self' = molecule self).
Proof.
  unfold add_attachment_point. split.
  - intros existing Hin. by rewrite Hin.
  - intros Hfresh. rewrite Hfresh. eexists. split; [reflexivity|].
    simpl. split_and!; try done.
    + apply lookup_insert_eq.
    + intros q Hq. by apply lookup_insert_ne.
Qed.

Lemma add_attachment_point_contract_witness :
  add_attachment_point "Zero" (5, 5)%float MoleculeBuilder_init
    = (Raise DuplicateAttachmentPoint, MoleculeBuilder_init) ∧
  ∃ self',
    add_attachment_point "Top" (0, 3)%float MoleculeBuilder_init = (Ok tt, self') ∧
    attachment_points self' !! "Top" = Some (mkPoint "Top" (0, 3)%float).
Proof.
  destruct (add_attachment_point_contract MoleculeBuilder_init "Zero" (5, 5)%float)
    as [Hdup _].
  destruct (add_attachment_point_contract MoleculeBuilder_init "Top" (0, 3)%float)
    as [_ Hfresh].
  split.
  - apply (Hdup (mkPoint "Zero" (0, 0)%float)). vm_compute. reflexivity.
  - destruct Hfresh as (self' & Hrun & Hget & _).
    + vm_compute. reflexivity.
    + exists self'. split; assumption.
Defined.

(** The entry that [add_attachment_point] stores carries its key as its
    name. *)
Lemma add_attachment_point_name_is_key (self : MoleculeBuilder) (name0 : string)
    (position0 : float * float) (p : AttachmentPoint) :
  attachment_points self !! name0 = None →
  attachment_points (snd (add_attachment_point name0 position0 self)) !! name0 = Some p →
  point_name p = name0.
Proof.
  unfold add_attachment_point. intros ->. simpl.
  rewrite lookup_insert_eq. by intros [= <-].
Qed.

(** C5. The registry built by the constructor stores two points of one name:
    the entries under the keys FRight and SRight are both named FR (and
    those under FLeft and SLeft both FL).  Only the keys are unique. *)
Theorem default_point_names_collide :
  ∃ p1 p2,
    attachment_points MoleculeBuilder_init !! "FRight" = Some p1 ∧
    attachment_points MoleculeBuilder_init !! "SRight" = Some p2 ∧
    position p1 ≠ position p2 ∧
    point_name p1 = point_name p2.
Proof.
  exists (mkPoint "FR" (1, 0)%float), (mkPoint "FR" (2, 0)%float).
  split_and!; try (vm_compute; reflexivity).
  simpl. intros H.
  apply (f_equal (fun p => PrimFloat.eqb (fst p) 1)) in H.
  vm_compute in H. discriminate.
Qed.

(** ** The component registry *)

(** C1. The color check never fails.  As the program runs it,
    [add_component] raises the invalid-color error for no builder and no
    arguments at all, and the call with the valid shape circle and the color
    notacolor, which is no named color, no hex color and not the sentinel
    none, returns and stores the component among the sugars. *)
Theorem add_component_color_check_is_dead :
  (∀ (self : MoleculeBuilder) (name0 shape0 color0 label0 category : string),
     fst (add_component plot_without_data name0 shape0 color0 label0 category self)
       ≠ Raise InvalidColor) ∧
  add_component plot_without_data "X" "circle" "notacolor" "X" "Sugar"
    MoleculeBuilder_init
  = (Ok tt,
     set_sugars (insert "X" (mkComponent "X" "circle" "notacolor" "X"))
       MoleculeBuilder_init).
Proof.
  split; [|reflexivity].
  intros self name0 shape0 color0 label0 category.
  unfold add_component, plot_accepts_color, plot_without_data.
  destruct (str_in shape0 VALID_SHAPES); cbn [negb orb]; [|discriminate].
  destruct (String.eqb category "Sugar"); [discriminate|].
  destruct (String.eqb category "Substituent"); [discriminate|].
  destruct (String.eqb category "Scaffold"); discriminate.
Qed.

(** ** The molecule graph *)

(** C3. For a category in Sugar, Substituent: [attach_component] raises the
    unknown-point error when the point is no key of the attachment-point
    registry, raises the unknown-component error when the point is registered
    and the component is absent from the category's registry, and otherwise
    returns with the pair (component, direction) appended to the sequence
    stored under the point in the category's map, the sequence being created
    when absent; a failed call leaves the builder as it was. *)
Theorem attach_component_contract (self : MoleculeBuilder)
    (parent_point component_name direction category : string) :
  category = "Sugar" ∨ category = "Substituent" →
  (attachment_points self !! parent_point = None →
     attach_component parent_point component_name direction category self
       = (Raise UnknownAttachmentPoint, self)) ∧
  (is_Some (attachment_points self !! parent_point) →
     component_registry category self !! component_name = None →
     attach_component parent_point component_name direction category self
       = (Raise UnknownComponent, self)) ∧
  (∀ component,
     is_Some (attachment_points self !! parent_point) →
     component_registry category self !! component_name = Some component →
     ∃ self',
       attach_component parent_point component_name direction category self
         = (Ok tt, self') ∧
       appended_at parent_point (component, direction)
         (attachment_map category (molecule self))
         (attachment_map category (molecule self')) ∧
       other_attachment_map category (molecule self')
         = other_attachment_map category (molecule self) ∧
       scaffold (molecule self') = scaffold (molecule self) ∧
       attachment_points self' = attachment_points self ∧
       same_components self self').
Proof.
  intros [-> | ->].
  - rewrite attach_component_sugar.
    unfold component_registry, attachment_map, other_attachment_map. simpl.
    split_and!.
    + by intros ->.
    + intros [ap ->] ->. done.
    + intros component [ap ->] ->. eexists. split; [reflexivity|].
      simpl. split_and!; try done. apply od_set_appended_at.
  - rewrite attach_component_not_sugar by discriminate.
    unfold component_registry, attachment_map, other_attachment_map. simpl.
    split_and!.
    + by intros ->.
    + intros [ap ->] ->. done.
    + intros component [ap ->] ->. eexists. split; [reflexivity|].
      simpl. split_and!; try done. apply od_set_appended_at.
Qed.

Lemma attach_component_contract_witness :
  attach_component "Nowhere" "XYL" "Up" "Sugar" MoleculeBuilder_init
    = (Raise UnknownAttachmentPoint, MoleculeBuilder_init) ∧
  attach_component "Zero" "XYL" "Up" "Substituent" MoleculeBuilder_init
    = (Raise UnknownComponent, MoleculeBuilder_init) ∧
  ∃ self',
    attach_component "Zero" "XYL" "Up" "Sugar" MoleculeBuilder_init = (Ok tt, self') ∧
    od_get "Zero" (attached_sugars (molecule self'))
      = Some [(mkComponent "XYL" "circle" "#228B22" "Xyl", "Up")].
Proof.
  split_and!.
  - apply (attach_component_contract MoleculeBuilder_init "Nowhere" "XYL" "Up" "Sugar").
    + left. reflexivity.
    + vm_compute. reflexivity.
  - apply (attach_component_contract MoleculeBuilder_init "Zero" "XYL" "Up" "Substituent").
    + right. reflexivity.
    + exists (mkPoint "Zero" (0, 0)%float). vm_compute. reflexivity.
    + vm_compute. reflexivity.
  - destruct (attach_component_contract MoleculeBuilder_init "Zero" "XYL" "Up" "Sugar")
      as (_ & _ & Hok).
    + left. reflexivity.
    + destruct (Hok (mkComponent "XYL" "circle" "#228B22" "Xyl"))
        as (self' & Hrun & (Hget & _) & _).
      * exists (mkPoint "Zero" (0, 0)%float). vm_compute. reflexivity.
      * vm_compute. reflexivity.
      * exists self'. split; [exact Hrun | exact Hget].
Defined.

(** C10. Under any category tag other than Sugar, [attach_component] looks
    the component up among the substituents and, when it is there and the
    point is registered, appends to the substituents' attachment map and
    leaves the sugars' map alone; the call is the very call made with the
    tag Substituent, so that tag is not tested. *)
Theorem attach_component_any_other_category (self : MoleculeBuilder)
    (parent_point component_name direction category : string) :
  category ≠ "Sugar" →
  attach_component parent_point component_name direction category self
    = attach_component parent_point component_name direction "Substituent" self ∧
  (is_Some (attachment_points self !! parent_point) →
   substituents self !! component_name = None →
   attach_component parent_point component_name direction category self
     = (Raise UnknownComponent, self)) ∧
  (∀ component,
     is_Some (attachment_points self !! parent_point) →
     substituents self !! component_name = Some component →
     ∃ self',
       attach_component parent_point component_name direction category self
         = (Ok tt, self') ∧
       appended_at parent_point (component, direction)
         (attached_substituents (molecule self))
         (attached_substituents (molecule self')) ∧
       attached_sugars (molecule self') = attached_sugars (molecule self)).
Proof.
  intros Hcat. split_and!.
  - rewrite !attach_component_not_sugar; [done | discriminate | done].
  - intros [ap Hap] Hnone. rewrite attach_component_not_sugar by done.
    by rewrite Hap, Hnone.
  - intros component [ap Hap] Hsome. rewrite attach_component_not_sugar by done.
    rewrite Hap, Hsome. eexists. split; [reflexivity|].
    simpl. split; [apply od_set_appended_at | done].
Qed.

Lemma attach_component_any_other_category_witness :
  attach_component "Zero" "OH" "Up" "Scaffold" MoleculeBuilder_init
    = attach_component "Zero" "OH" "Up" "Substituent" MoleculeBuilder_init ∧
  attach_component "Zero" "QA" "Up" "Scaffold" MoleculeBuilder_init
    = (Raise UnknownComponent, MoleculeBuilder_init) ∧
  ∃ self',
    attach_component "Zero" "OH" "Up" "" MoleculeBuilder_init = (Ok tt, self') ∧
    od_get "Zero" (attached_substituents (molecule self'))
      = Some [(mkComponent "OH" "circle" "none" "OH", "Up")].
Proof.
  split_and!.
  - apply (attach_component_any_other_category MoleculeBuilder_init "Zero" "OH" "Up"
             "Scaffold").
    discriminate.
  - apply (attach_component_any_other_category MoleculeBuilder_init "Zero" "QA" "Up"
             "Scaffold").
    + discriminate.
    + exists (mkPoint "Zero" (0, 0)%float). vm_compute. reflexivity.
    + vm_compute. reflexivity.
  - destruct (attach_component_any_other_category MoleculeBuilder_init "Zero" "OH" "Up" "")
      as (_ & _ & Hok).
    + discriminate.
    + destruct (Hok (mkComponent "OH" "circle" "none" "OH"))
        as (self' & Hrun & (Hget & _) & _).
      * exists (mkPoint "Zero" (0, 0)%float). vm_compute. reflexivity.
      * vm_compute. reflexivity.
      * exists self'. split; [exact Hrun | exact Hget].
Defined.

(** ** The layout formula *)

Lemma add_children_nil ax : add_children [] ax = ax.
Proof. destruct ax. unfold add_children. simpl. by rewrite app_nil_r. Qed.

Lemma add_children_app l1 l2 ax :
  add_children l2 (add_children l1 ax) = add_children (l1 ++ l2) ax.
Proof. unfold add_children. simpl. by rewrite app_assoc. Qed.

Lemma draw_shape_children shape_type ax position0 color0 label0 :
  draw_shape shape_type ax position0 color0 label0
    = add_children (shape_artists shape_type position0 color0 label0) ax.
Proof.
  unfold draw_shape, shape_artists.
  destruct (String.eqb shape_type "hexagon").
  - unfold add_child, add_children. simpl. by rewrite <- app_assoc.
  - destruct (String.eqb shape_type "circle").
    + unfold add_child, add_children. simpl. by rewrite <- app_assoc.
    + by rewrite add_children_nil.
Qed.

(** The inner loop, whatever index it starts from, draws every item at the
    index-free position. *)
Lemma draw_items_run points point ap items : ∀ i ax,
  points !! point = Some ap →
  draw_items points point i items ax = Ok (add_children (flat_map (drawn_item ap) items) ax).
Proof.
  induction items as [|[component direction] items IH]; intros i ax Hap; simpl.
  - by rewrite add_children_nil.
  - rewrite Hap. rewrite (IH (S i) _ Hap).
    by rewrite draw_shape_children, add_children_app.
Qed.

(** C2. The position of an attached component is the point's position plus
    the direction vector times 1.0, whatever the index; two components at one
    point with one direction get equal coordinates; and the inner drawing
    loop over the items of a registered point, started at any index, places
    every item at that index-free position. *)
Theorem component_position_ignores_index (point_position : float * float)
    (direction : string) (i : nat) :
  component_position point_position direction i
    = ((point_position.1 + (direction_vector direction).1 * 1.0)%float,
       (point_position.2 + (direction_vector direction).2 * 1.0)%float) ∧
  (∀ j, component_position point_position direction j
        = component_position point_position direction i) ∧
  (∀ points point name0 items ax,
     draw_items (<[point := mkPoint name0 point_position]> points) point i items ax
       = Ok (add_children
               (flat_map (drawn_item (mkPoint name0 point_position)) items) ax)).
Proof.
  split_and!.
  - reflexivity.
  - reflexivity.
  - intros points point name0 items ax. apply draw_items_run, lookup_insert_eq.
Qed.

(** C4. A direction that is none of Up, Down, Left, Right resolves to the
    coordinates that Right resolves to, at every point position and index. *)
Theorem unknown_direction_is_right (point_position : float * float) (direction : string)
    (i : nat) :
  direction ≠ "Up" → direction ≠ "Down" → direction ≠ "Left" → direction ≠ "Right" →
  component_position point_position direction i
    = component_position point_position "Right" i.
Proof.
  intros Hu Hd Hl Hr.
  unfold component_position, direction_vector, direction_table. cbn [od_get].
  rewrite !(proj2 (String.eqb_neq _ _)) by (intros E; symmetry in E; contradiction).
  reflexivity.
Qed.

Lemma unknown_direction_is_right_witness :
  component_position (1, 0)%float "Sideways" 0 = component_position (1, 0)%float "Right" 0 ∧
  component_position (1, 0)%float "" 4 = component_position (1, 0)%float "Right" 4.
Proof.
  split.
  - apply (unknown_direction_is_right (1, 0)%float "Sideways" 0); discriminate.
  - apply (unknown_direction_is_right (1, 0)%float "" 4); discriminate.
Defined.

(** C6. In the builder as constructed, the point FRight is registered at
    (1, 0); attaching the substituent OH there with direction Right returns,
    and drawing then places the OH disk and its label at (2, 0), which is
    not the point's own position. *)
Theorem default_OH_at_FRight_is_2_0 :
  ∃ self' fig,
    position <$> attachment_points MoleculeBuilder_init !! "FRight" = Some (1, 0)%float ∧
    attach_component "FRight" "OH" "Right" "Substituent" MoleculeBuilder_init
      = (Ok tt, self') ∧
    visualize_molecule self' = (Ok fig, self') ∧
    children (axes fig)
      = shape_artists "hexagon" (0, 0)%float "lime" "QA"
        ++ [Circle (2, 0)%float 0.5%float "none"; Text 2%float 0%float "OH" 8] ∧
    component_position (1, 0)%float "Right" 0 = (2, 0)%float ∧
    component_position (1, 0)%float "Right" 0 ≠ (1, 0)%float.
Proof.
  exists (snd (attach_component "FRight" "OH" "Right" "Substituent" MoleculeBuilder_init)).
  exists (mkFigure (10, 4)%float
            (finish_axes
               (add_children
                  (shape_artists "hexagon" (0, 0)%float "lime" "QA"
                   ++ [Circle (2, 0)%float 0.5%float "none";
                       Text 2%float 0%float "OH" 8])
                  new_axes))
            true).
  split_and!; try (vm_compute; reflexivity).
  intros H.
  apply (f_equal (fun p => PrimFloat.eqb (fst p) 1)) in H.
  vm_compute in H. discriminate.
Qed.

(** ** Drawing order *)

Lemma draw_attached_run points d : ∀ ax,
  registered points d →
  draw_attached points d ax = Ok (add_children (flat_map (drawn_entry points) d) ax).
Proof.
  induction d as [|[point items] d IH]; intros ax Hreg; simpl.
  - by rewrite add_children_nil.
  - apply Forall_cons in Hreg as [[ap Hap] Hreg]. simpl in Hap.
    rewrite (draw_items_run _ _ ap) by done.
    rewrite (IH _ Hreg), add_children_app.
    unfold drawn_entry at 2. simpl. by rewrite Hap.
Qed.


(** ** Drawing reads only *)

Lemma visualize_molecule_reads_only (self : MoleculeBuilder) :
  snd (visualize_molecule self) = self.
Proof.
  unfold visualize_molecule, bind, get_self, lift, ret.
  destruct (draw_attached _ (attached_sugars _) _) as [ax|e]; [|done].
  by destruct (draw_attached _ (attached_substituents _) _).
Qed.


(** ** The builders a session can reach *)

Lemma registered_insert points name0 ap d :
  points !! name0 = None → registered points d → registered (<[name0 := ap]> points) d.
Proof.
  intros Hfresh Hd. unfold registered in *. eapply Forall_impl; [exact Hd|].
  intros [k l] [p Hp]. simpl in *.
  destruct (decide (k = name0)) as [->|Hne]; [congruence|].
  exists p. by rewrite lookup_insert_ne.
Qed.

Lemma registered_store points k l d :
  is_Some (points !! k) → registered points d → registered points (od_set k l d).
Proof. intros Hk Hd. by apply od_set_Forall. Qed.

(** The invariant of section 3 of the specification: in every reachable
    builder the keys of both attachment maps are registered points, so
    [visualize_molecule] never meets a missing key. *)
Lemma reachable_registered parses_named_or_hex self :
  reachable parses_named_or_hex self →
  registered (attachment_points self) (attached_sugars (molecule self)) ∧
  registered (attachment_points self) (attached_substituents (molecule self)).
Proof.
  induction 1 as [|self c Hreach [IHsug IHsub]].
  - split; constructor.
  - unfold after. destruct c as [n p | n s c l cat | p n d cat | n |]; simpl.
    + unfold add_attachment_point.
      destruct (attachment_points self !! n) eqn:E; simpl; [done|].
      split; by apply registered_insert.
    + unfold add_component. repeat case_match; simpl; done.
    + destruct (decide (cat = "Sugar")) as [->|Hcat].
      * rewrite attach_component_sugar.
        destruct (attachment_points self !! p) eqn:E; [|done].
        destruct (sugars self !! n); [|done]. simpl.
        split; [|done]. apply registered_store; [by rewrite E | done].
      * rewrite attach_component_not_sugar by done.
        destruct (attachment_points self !! p) eqn:E; [|done].
        destruct (substituents self !! n); [|done]. simpl.
        split; [done|]. apply registered_store; [by rewrite E | done].
    + unfold set_scaffold. destruct (scaffolds self !! n); done.
    + unfold ignore, bind, ret.
      pose proof (visualize_molecule_reads_only self) as Hsame.
      destruct (visualize_molecule self) as [[fig|e] self']; simpl in *; by subst.
Qed.

(** * Further properties *)

(** ** [add_component] beyond the color check *)

Lemma str_in_valid_shapes shape0 :
  str_in shape0 VALID_SHAPES = true ↔ shape0 = "hexagon" ∨ shape0 = "circle".
Proof.
  unfold str_in, VALID_SHAPES. simpl. rewrite orb_false_r, orb_true_iff.
  by rewrite !String.eqb_eq.
Qed.

Lemma plot_accepts_color_true parses_named_or_hex color0 :
  plot_accepts_color parses_named_or_hex color0 = true
  ↔ parses_named_or_hex color0 = true ∨ color0 = "none".
Proof. unfold plot_accepts_color. by rewrite orb_true_iff, String.eqb_eq. Qed.

(** Whatever it is given, [add_component] touches neither the attachment
    points nor the molecule. *)
Lemma add_component_frame parses_named_or_hex name0 shape0 color0 label0 category self :
  attachment_points (snd (add_component parses_named_or_hex name0 shape0 color0 label0
                            category self)) = attachment_points self ∧
  molecule (snd (add_component parses_named_or_hex name0 shape0 color0 label0
                   category self)) = molecule self.
Proof. unfold add_component. by repeat case_match. Qed.

(** The figure depends on the attachment points and the molecule only. *)
Lemma visualize_molecule_frame self1 self2 :
  attachment_points self1 = attachment_points self2 →
  molecule self1 = molecule self2 →
  fst (visualize_molecule self1) = fst (visualize_molecule self2).
Proof.
  intros Hp Hm. unfold visualize_molecule, bind, get_self, lift, ret.
  rewrite Hp, Hm.
  destruct (draw_attached _ (attached_sugars _) _) as [ax|e]; [|done].
  by destruct (draw_attached _ (attached_substituents _) _).
Qed.

(** X1. A shape other than hexagon and circle makes [add_component] raise
    the invalid-shape error and leave the builder as it was, whatever the
    color: the shape is checked first. *)
Theorem add_component_invalid_shape (parses_named_or_hex : string → bool)
    (self : MoleculeBuilder) (name0 shape0 color0 label0 category : string) :
  shape0 ≠ "hexagon" → shape0 ≠ "circle" →
  add_component parses_named_or_hex name0 shape0 color0 label0 category self
    = (Raise InvalidShape, self).
Proof.
  intros Hh Hc. unfold add_component.
  destruct (str_in shape0 VALID_SHAPES) eqn:E; [|done].
  apply str_in_valid_shapes in E as [?|?]; contradiction.
Qed.

Lemma add_component_invalid_shape_witness :
  add_component (fun _ => false) "X" "square" "notacolor" "X" "Sugar" MoleculeBuilder_init
    = (Raise InvalidShape, MoleculeBuilder_init).
Proof.
  apply (add_component_invalid_shape (fun _ => false) MoleculeBuilder_init
           "X" "square" "notacolor" "X" "Sugar"); discriminate.
Defined.

(** X2. With a valid shape, an accepted color and one of the three category
    tags, [add_component] returns; the registry of that category then maps
    the name to a component with exactly the given name, shape, color and
    label, keeps every other key, and the registries of the other tags, the
    attachment points and the molecule are as before. *)
Theorem add_component_stores (parses_named_or_hex : string → bool)
    (self : MoleculeBuilder) (name0 shape0 color0 label0 category : string)
    (reg : MoleculeBuilder → gmap string MolecularComponent) :
  shape0 = "hexagon" ∨ shape0 = "circle" →
  parses_named_or_hex color0 = true ∨ color0 = "none" →
  category_registry category = Some reg →
  ∃ self',
    add_component parses_named_or_hex name0 shape0 color0 label0 category self
      = (Ok tt, self') ∧
    reg self' !! name0 = Some (mkComponent name0 shape0 color0 label0) ∧
    (∀ q, q ≠ name0 → reg self' !! q = reg self !! q) ∧
    (∀ category' reg',
       category_registry category' = Some reg' → category' ≠ category →
       reg' self' = reg' self) ∧
    attachment_points self' = attachment_points self ∧
    molecule self' = molecule self.
Proof.
  intros Hshape Hcolor Hreg.
  apply str_in_valid_shapes in Hshape.
  apply (plot_accepts_color_true parses_named_or_hex) in Hcolor.
  unfold add_component. rewrite Hshape, Hcolor. simpl.
  unfold category_registry in Hreg.
  destruct (String.eqb category "Sugar") eqn:E1;
    [|destruct (String.eqb category "Substituent") eqn:E2;
      [|destruct (String.eqb category "Scaffold") eqn:E3; [|done]]];
    injection Hreg as <-; eexists; (split; [reflexivity|]); simpl;
    (split_and!;
     [ apply lookup_insert_eq
     | intros q Hq; by apply lookup_insert_ne
     | intros category' reg' Hreg' Hne; unfold category_registry in Hreg';
       repeat match type of Hreg' with
         | context [String.eqb ?a ?b] =>
             let E := fresh "E" in destruct (String.eqb a b) eqn:E
         end;
       try discriminate; injection Hreg' as <-; try reflexivity;
       exfalso; apply Hne;
       repeat match goal with
         | H : String.eqb _ _ = true |- _ => apply String.eqb_eq in H
         end; congruence
     | reflexivity
     | reflexivity ]).
Qed.

Lemma add_component_stores_witness :
  ∃ self',
    add_component (fun _ => false) "OH" "hexagon" "none" "Hydroxyl" "Scaffold"
      MoleculeBuilder_init = (Ok tt, self') ∧
    scaffolds self' !! "OH" = Some (mkComponent "OH" "hexagon" "none" "Hydroxyl") ∧
    substituents self' !! "OH" = Some (mkComponent "OH" "circle" "none" "OH").
Proof.
  destruct (add_component_stores (fun _ => false) MoleculeBuilder_init
              "OH" "hexagon" "none" "Hydroxyl" "Scaffold" scaffolds)
    as (self' & Hrun & Hget & _ & Hothers & _).
  - left. reflexivity.
  - right. reflexivity.
  - reflexivity.
  - exists self'. split_and!; [exact Hrun | exact Hget |].
    rewrite (Hothers "Substituent" substituents); [|reflexivity|discriminate].
    vm_compute. reflexivity.
Defined.

(** X3. With a valid shape and an accepted color but a category tag that is
    none of Sugar, Substituent, Scaffold, [add_component] returns without an
    error and stores nothing: the builder is as it was. *)
Theorem add_component_unknown_category (parses_named_or_hex : string → bool)
    (self : MoleculeBuilder) (name0 shape0 color0 label0 category : string) :
  shape0 = "hexagon" ∨ shape0 = "circle" →
  parses_named_or_hex color0 = true ∨ color0 = "none" →
  category ≠ "Sugar" → category ≠ "Substituent" → category ≠ "Scaffold" →
  add_component parses_named_or_hex name0 shape0 color0 label0 category self
    = (Ok tt, self).
Proof.
  intros Hshape Hcolor H1 H2 H3.
  apply str_in_valid_shapes in Hshape.
  apply (plot_accepts_color_true parses_named_or_hex) in Hcolor.
  unfold add_component. rewrite Hshape, Hcolor. simpl.
  by rewrite !(proj2 (String.eqb_neq _ _)) by done.
Qed.

Lemma add_component_unknown_category_witness :
  add_component (fun _ => false) "X" "circle" "none" "X" "sugar" MoleculeBuilder_init
    = (Ok tt, MoleculeBuilder_init).
Proof.
  apply (add_component_unknown_category (fun _ => false) MoleculeBuilder_init
           "X" "circle" "none" "X" "sugar");
    first [discriminate | right; reflexivity].
Defined.

(** X4. Adding under a name again replaces what was stored: when the second
    call's shape and color pass, running it after any first call under the
    same name and category leaves the builder the second call alone would
    leave. *)
Theorem add_component_last_wins (parses_named_or_hex : string → bool)
    (self : MoleculeBuilder)
    (name0 shape1 color1 label1 shape2 color2 label2 category : string) :
  shape2 = "hexagon" ∨ shape2 = "circle" →
  parses_named_or_hex color2 = true ∨ color2 = "none" →
  add_component parses_named_or_hex name0 shape2 color2 label2 category
    (snd (add_component parses_named_or_hex name0 shape1 color1 label1 category self))
  = add_component parses_named_or_hex name0 shape2 color2 label2 category self.
Proof.
  intros Hshape Hcolor.
  apply str_in_valid_shapes in Hshape.
  apply (plot_accepts_color_true parses_named_or_hex) in Hcolor.
  unfold add_component. rewrite Hshape, Hcolor.
  destruct (str_in shape1 VALID_SHAPES); cbn [negb snd]; [|done].
  destruct (plot_accepts_color parses_named_or_hex color1); cbn [negb snd]; [|done].
  destruct (String.eqb category "Sugar");
    [|destruct (String.eqb category "Substituent");
      [|destruct (String.eqb category "Scaffold"); [|done]]];
    unfold set_sugars, set_substituents, set_scaffolds; cbn [snd];
    cbn [scaffolds sugars substituents attachment_points molecule];
    by rewrite insert_insert_eq.
Qed.

Lemma add_component_last_wins_witness :
  sugars (snd (add_component (fun _ => true) "XYL" "hexagon" "red" "X2" "Sugar"
                 (snd (add_component (fun _ => true) "XYL" "circle" "blue" "X1" "Sugar"
                         MoleculeBuilder_init)))) !! "XYL"
    = Some (mkComponent "XYL" "hexagon" "red" "X2").
Proof.
  rewrite (add_component_last_wins (fun _ => true) MoleculeBuilder_init
             "XYL" "circle" "blue" "X1" "hexagon" "red" "X2" "Sugar").
  - vm_compute. reflexivity.
  - left. reflexivity.
  - left. reflexivity.
Defined.

(** X5. [add_component] never changes the picture: whatever it is given and
    whether it returns or raises, the molecule is untouched (what is attached
    keeps the component it was attached with) and [visualize_molecule] gives
    afterwards what it gave before. *)
Theorem add_component_keeps_picture (parses_named_or_hex : string → bool)
    (self : MoleculeBuilder) (name0 shape0 color0 label0 category : string) :
  molecule (snd (add_component parses_named_or_hex name0 shape0 color0 label0
                   category self)) = molecule self ∧
  fst (visualize_molecule
         (snd (add_component parses_named_or_hex name0 shape0 color0 label0
                 category self)))
    = fst (visualize_molecule self).
Proof.
  destruct (add_component_frame parses_named_or_hex name0 shape0 color0 label0
              category self) as [Hp Hm].
  split; [exact Hm|]. by apply visualize_molecule_frame.
Qed.

(** ** One call at a time *)

Lemma after_step parses_named_or_hex c self : step self (after parses_named_or_hex c self).
Proof.
  unfold after. destruct c as [n p | n s c l cat | p n d cat | n |]; simpl.
  - unfold add_attachment_point.
    destruct (attachment_points self !! n) eqn:E; simpl; [constructor|].
    by apply step_point.
  - unfold add_component.
    destruct (str_in s VALID_SHAPES) eqn:Hs; cbn [negb]; [|constructor].
    apply str_in_valid_shapes in Hs.
    destruct (plot_accepts_color parses_named_or_hex c); cbn [negb]; [|constructor].
    destruct (String.eqb cat "Sugar"); [by apply step_sugar|].
    destruct (String.eqb cat "Substituent"); [by apply step_substituent|].
    destruct (String.eqb cat "Scaffold"); [by apply step_scaffold_entry|].
    constructor.
  - destruct (decide (cat = "Sugar")) as [->|Hcat].
    + rewrite attach_component_sugar.
      destruct (attachment_points self !! p) eqn:E; [|constructor].
      destruct (sugars self !! n) eqn:E'; [|constructor].
      simpl. eapply step_attach_sugar; [by rewrite E | done].
    + rewrite attach_component_not_sugar by done.
      destruct (attachment_points self !! p) eqn:E; [|constructor].
      destruct (substituents self !! n) eqn:E'; [|constructor].
      simpl. eapply step_attach_substituent; [by rewrite E | done].
  - unfold set_scaffold. destruct (scaffolds self !! n) eqn:E; simpl; [|constructor].
    by eapply step_select.
  - unfold ignore, bind, ret.
    pose proof (visualize_molecule_reads_only self) as Hsame.
    destruct (visualize_molecule self) as [[fig|e] self']; simpl in *; subst; constructor.
Qed.

Lemma is_Some_insert {A} (m : gmap string A) k k' x :
  is_Some (m !! k) → is_Some (<[k' := x]> m !! k).
Proof.
  intros Hk. destruct (decide (k' = k)) as [->|Hne].
  - rewrite lookup_insert_eq. by eexists.
  - by rewrite lookup_insert_ne.
Qed.

(** X6. No call ever removes a registration: after any call, returned or
    raised, an attachment point is still registered with the same name and
    position, and every name of a component registry is still a name of that
    registry. *)
Theorem call_keeps_registrations (parses_named_or_hex : string → bool) (c : Call)
    (self : MoleculeBuilder) :
  (∀ k p, attachment_points self !! k = Some p →
          attachment_points (after parses_named_or_hex c self) !! k = Some p) ∧
  (∀ k, is_Some (scaffolds self !! k) →
        is_Some (scaffolds (after parses_named_or_hex c self) !! k)) ∧
  (∀ k, is_Some (sugars self !! k) →
        is_Some (sugars (after parses_named_or_hex c self) !! k)) ∧
  (∀ k, is_Some (substituents self !! k) →
        is_Some (substituents (after parses_named_or_hex c self) !! k)).
Proof.
  destruct (after_step parses_named_or_hex c self); simpl;
    split_and!; try done; try (intros k Hk; by apply is_Some_insert).
  intros k p Hk. rewrite lookup_insert_ne; [done|]. congruence.
Qed.

Lemma sequence_at_set_eq k l (d : odict (list Attachment)) :
  sequence_at k (od_set k l d) = l.
Proof. unfold sequence_at. by rewrite od_get_set_eq. Qed.

Lemma sequence_at_set_ne k q l (d : odict (list Attachment)) :
  q ≠ k → sequence_at q (od_set k l d) = sequence_at q d.
Proof. intros Hq. unfold sequence_at. by rewrite od_get_set_ne. Qed.

Lemma od_append_grows k q x (d : odict (list Attachment)) :
  od_keys d `prefix_of` od_keys (od_set k (sequence_at k d ++ [x]) d) ∧
  sequence_at q d `prefix_of` sequence_at q (od_set k (sequence_at k d ++ [x]) d).
Proof.
  split.
  - rewrite od_keys_set. by apply prefix_app_r.
  - destruct (decide (q = k)) as [->|Hne].
    + rewrite sequence_at_set_eq. by apply prefix_app_r.
    + by rewrite sequence_at_set_ne.
Qed.

(** X7. No call ever removes or reorders an attachment: after any call the
    keys of each attachment map start with the keys it had, in their order,
    and under every key the sequence starts with the sequence it had. *)
Theorem call_only_appends (parses_named_or_hex : string → bool) (c : Call)
    (self : MoleculeBuilder) (k : string) :
  od_keys (attached_sugars (molecule self))
    `prefix_of` od_keys (attached_sugars (molecule (after parses_named_or_hex c self))) ∧
  od_keys (attached_substituents (molecule self))
    `prefix_of`
    od_keys (attached_substituents (molecule (after parses_named_or_hex c self))) ∧
  sequence_at k (attached_sugars (molecule self))
    `prefix_of`
    sequence_at k (attached_sugars (molecule (after parses_named_or_hex c self))) ∧
  sequence_at k (attached_substituents (molecule self))
    `prefix_of`
    sequence_at k (attached_substituents (molecule (after parses_named_or_hex c self))).
Proof.
  destruct (after_step parses_named_or_hex c self); simpl; split_and!;
    try done; by apply od_append_grows.
Qed.

(** ** What every reachable builder satisfies *)

Lemma od_get_None_keys {V} k (d : odict V) : od_get k d = None ↔ k ∉ od_keys d.
Proof.
  unfold od_keys. induction d as [|[k' v] d IH]; simpl.
  - split; [intros _; apply not_elem_of_nil | done].
  - rewrite not_elem_of_cons. destruct (String.eqb k' k) eqn:E.
    + apply String.eqb_eq in E. split; [done | intros [? _]; congruence].
    + apply String.eqb_neq in E. rewrite IH. split; [by intros ?; split | by intros [_ ?]].
Qed.

Lemma od_get_Some_elem {V} k (v : V) (d : odict V) : od_get k d = Some v → (k, v) ∈ d.
Proof.
  induction d as [|[k' v'] d IH]; simpl; [done|].
  destruct (String.eqb k' k) eqn:E.
  - apply String.eqb_eq in E. intros [= ->]. subst. apply list_elem_of_here.
  - intros H. apply list_elem_of_further. by apply IH.
Qed.

Lemma od_set_NoDup {V} k (v : V) (d : odict V) :
  NoDup (od_keys d) → NoDup (od_keys (od_set k v d)).
Proof.
  intros Hd. rewrite od_keys_set. unfold od_mem.
  destruct (od_get k d) eqn:E; [by rewrite app_nil_r|].
  apply od_get_None_keys in E.
  apply NoDup_app. split_and!; [done | | apply NoDup_singleton].
  intros q Hq Hq'. apply list_elem_of_singleton in Hq'. by subst.
Qed.

Lemma od_append_tidy k x (d : odict (list Attachment)) :
  tidy d → tidy (od_set k (sequence_at k d ++ [x]) d).
Proof.
  intros [Hnd Hne]. split; [by apply od_set_NoDup|].
  apply od_set_Forall; [|done]. simpl. by destruct (sequence_at k d).
Qed.

Lemma Forall_attached_items (P : Attachment → Prop) (d : odict (list Attachment)) :
  Forall P (attached_items d) ↔ Forall (fun e => Forall P e.2) d.
Proof.
  unfold attached_items. induction d as [|[k l] d IH]; simpl.
  - split; constructor.
  - rewrite Forall_app, Forall_cons, IH. done.
Qed.

Lemma od_append_Forall (P : Attachment → Prop) k x (d : odict (list Attachment)) :
  P x → Forall P (attached_items d) →
  Forall P (attached_items (od_set k (sequence_at k d ++ [x]) d)).
Proof.
  rewrite !Forall_attached_items. intros Hx Hd.
  apply od_set_Forall; [|done]. simpl.
  apply Forall_app. split; [|by repeat constructor].
  unfold sequence_at. destruct (od_get k d) as [l|] eqn:E; simpl; [|constructor].
  apply od_get_Some_elem in E.
  by apply (proj1 (Forall_forall _ _) Hd (k, l)).
Qed.

Lemma init_sound : sound MoleculeBuilder_init.
Proof.
  unfold sound, tidy, all_drawable. simpl.
  split_and!;
    lazymatch goal with
    | |- map_Forall _ _ =>
        apply map_Forall_lookup; intros k c Hk;
        unfold default_scaffolds, default_sugars, default_substituents in Hk;
        repeat (apply lookup_insert_Some in Hk as [[_ <-]|[_ Hk]];
                [unfold drawable; simpl; tauto|]);
        by rewrite lookup_empty in Hk
    | |- drawable _ => by left
    | |- _ => constructor
    end.
Qed.

Lemma step_sound self self' : step self self' → sound self → sound self'.
Proof.
  intros Hstep (Hsug & Hsub & Htsug & Htsub & Hsc & Hsu & Hsb & Hcur & Hdsug & Hdsub).
  destruct Hstep; unfold sound, all_drawable; simpl; split_and!; try done.
  - by apply registered_insert.
  - by apply registered_insert.
  - by apply map_Forall_insert_2.
  - by apply map_Forall_insert_2.
  - by apply map_Forall_insert_2.
  - by apply registered_store.
  - by apply od_append_tidy.
  - apply od_append_Forall; [|done]. simpl. by apply (Hsu name0).
  - by apply registered_store.
  - by apply od_append_tidy.
  - apply od_append_Forall; [|done]. simpl. by apply (Hsb name0).
  - by apply (Hsc name0).
Qed.

Lemma reachable_sound parses_named_or_hex self :
  reachable parses_named_or_hex self → sound self.
Proof.
  induction 1 as [|self c Hreach IH]; [apply init_sound|].
  eapply step_sound; [apply after_step | done].
Qed.

(** X8. In every builder a session can reach, each attachment map is a
    proper dict of non-empty sequences: no point name is a key twice, no key
    holds an empty sequence, and every key is a registered attachment
    point. *)
Theorem reachable_maps_tidy (parses_named_or_hex : string → bool)
    (self : MoleculeBuilder) :
  reachable parses_named_or_hex self →
  (NoDup (od_keys (attached_sugars (molecule self))) ∧
   NoDup (od_keys (attached_substituents (molecule self)))) ∧
  (∀ k l, od_get k (attached_sugars (molecule self)) = Some l ∨
          od_get k (attached_substituents (molecule self)) = Some l →
          l ≠ [] ∧ is_Some (attachment_points self !! k)).
Proof.
  intros Hreach.
  destruct (reachable_sound _ _ Hreach)
    as (Hsug & Hsub & [Hn1 He1] & [Hn2 He2] & _).
  split; [done|].
  intros k l [Hk|Hk]; apply od_get_Some_elem in Hk.
  - split.
    + by apply (proj1 (Forall_forall _ _) He1 (k, l)).
    + by apply (proj1 (Forall_forall _ _) Hsug (k, l)).
  - split.
    + by apply (proj1 (Forall_forall _ _) He2 (k, l)).
    + by apply (proj1 (Forall_forall _ _) Hsub (k, l)).
Qed.

Lemma reachable_maps_tidy_witness :
  NoDup (od_keys (attached_sugars (molecule
    (after (fun _ => true) (AttachComponent "Zero" "FUC" "Down" "Sugar")
       (after (fun _ => true) (AttachComponent "Zero" "XYL" "Up" "Sugar")
          MoleculeBuilder_init))))).
Proof.
  apply (reachable_maps_tidy (fun _ => true)
           (after (fun _ => true) (AttachComponent "Zero" "FUC" "Down" "Sugar")
              (after (fun _ => true) (AttachComponent "Zero" "XYL" "Up" "Sugar")
                 MoleculeBuilder_init))).
  repeat apply reachable_call. apply reachable_init.
Defined.

(** ** The figure of a reachable builder *)

(** The figure of a builder whose attachment maps name registered points
    only, written out. *)
Lemma visualize_molecule_run self :
  registered (attachment_points self) (attached_sugars (molecule self)) →
  registered (attachment_points self) (attached_substituents (molecule self)) →
  visualize_molecule self
    = (Ok (mkFigure (10, 4)%float
             (finish_axes
                (add_children
                   (shape_artists (shape (scaffold (molecule self))) (0, 0)%float
                      (color (scaffold (molecule self)))
                      (label (scaffold (molecule self)))
                    ++ flat_map (drawn_entry (attachment_points self))
                         (attached_sugars (molecule self))
                    ++ flat_map (drawn_entry (attachment_points self))
                         (attached_substituents (molecule self)))
                   new_axes))
             true),
       self).
Proof.
  intros Hsug Hsub.
  unfold visualize_molecule, bind, get_self, lift, ret.
  rewrite (draw_attached_run _ _ _ Hsug), (draw_attached_run _ _ _ Hsub).
  rewrite draw_shape_children, !add_children_app. by rewrite <- ?app_assoc.
Qed.

Lemma shape_artists_length c position0 :
  drawable c → length (shape_artists (shape c) position0 (color c) (label c)) = 2.
Proof. unfold shape_artists. by intros [-> | ->]. Qed.

Lemma drawn_items_length ap items :
  Forall (fun x => drawable x.1) items →
  length (flat_map (drawn_item ap) items) = 2 * length items.
Proof.
  induction 1 as [|x items Hx Hitems IH]; simpl; [done|].
  rewrite length_app, IH. unfold drawn_item at 1.
  rewrite shape_artists_length by done. lia.
Qed.

Lemma drawn_entries_length points d :
  registered points d →
  Forall (fun x => drawable x.1) (attached_items d) →
  length (flat_map (drawn_entry points) d) = 2 * length (attached_items d).
Proof.
  rewrite Forall_attached_items. unfold attached_items.
  induction 1 as [|[k l] d [ap Hap] Hd IH]; intros Hdraw; simpl; [done|].
  apply Forall_cons in Hdraw as [Hl Hdraw]. simpl in *.
  rewrite !length_app, (IH Hdraw). unfold drawn_entry at 1. simpl. rewrite Hap.
  rewrite drawn_items_length by done. unfold Attachment in *. lia.
Qed.

(** X9. In every builder a session can reach, every component held, in a
    registry, as the scaffold or attached, has the shape hexagon or circle;
    so whenever [visualize_molecule] returns a figure, the figure holds
    exactly two artists, a shape and its label, for the scaffold and for
    every attachment: the branch of [draw_shape] that draws nothing is never
    taken. *)
Theorem reachable_shapes_are_drawn (parses_named_or_hex : string → bool)
    (self : MoleculeBuilder) :
  reachable parses_named_or_hex self →
  all_drawable self ∧
  ∀ fig,
    fst (visualize_molecule self) = Ok fig →
    length (children (axes fig))
      = 2 * (1 + length (attached_items (attached_sugars (molecule self)))
               + length (attached_items (attached_substituents (molecule self)))).
Proof.
  intros Hreach.
  destruct (reachable_sound _ _ Hreach) as (Hsug & Hsub & _ & _ & Hall).
  split; [exact Hall|].
  destruct Hall as (_ & _ & _ & Hcur & Hdsug & Hdsub).
  intros fig. rewrite visualize_molecule_run by done. simpl. intros [= <-].
  simpl. rewrite !length_app.
  rewrite shape_artists_length, !drawn_entries_length by done. lia.
Qed.

Lemma reachable_shapes_are_drawn_witness :
  match
    fst (visualize_molecule
           (after plot_without_data (AttachComponent "FRight" "OH" "Right" "Substituent")
              (after plot_without_data (AttachComponent "Zero" "XYL" "Up" "Sugar")
                 (after plot_without_data (AddComponent "Odd" "square" "red" "O" "Sugar")
                    MoleculeBuilder_init))))
  with
  | Ok fig => length (children (axes fig)) = 6
  | Raise _ => False
  end.
Proof.
  destruct (reachable_shapes_are_drawn plot_without_data
              (after plot_without_data
                 (AttachComponent "FRight" "OH" "Right" "Substituent")
                 (after plot_without_data (AttachComponent "Zero" "XYL" "Up" "Sugar")
                    (after plot_without_data
                       (AddComponent "Odd" "square" "red" "O" "Sugar")
                       MoleculeBuilder_init))))
    as [_ Hcount].
  - repeat apply reachable_call. apply reachable_init.
  - exact (Hcount _ eq_refl).
Defined.

(** ** More on [attach_component] *)

(** [attach_component] for any tag, in terms of the registry and the map the
    tag selects. *)
Lemma attach_component_run self parent_point component_name direction category :
  attach_component parent_point component_name direction category self =
  match attachment_points self !! parent_point with
  | None => (Raise UnknownAttachmentPoint, self)
  | Some _ =>
      match component_registry category self !! component_name with
      | None => (Raise UnknownComponent, self)
      | Some c =>
          let put := if String.eqb category "Sugar" then with_attached_sugars
                     else with_attached_substituents in
          let d := attachment_map category (molecule self) in
          (Ok tt, set_molecule
                    (put (od_set parent_point
                            (sequence_at parent_point d ++ [(c, direction)]) d))
                    self)
      end
  end.
Proof.
  unfold component_registry, attachment_map.
  destruct (decide (category = "Sugar")) as [->|Hcat].
  - by rewrite attach_component_sugar.
  - rewrite attach_component_not_sugar by done. by rewrite (eqb_Sugar_false _ Hcat).
Qed.

(** X11. The direction is never checked when attaching: whether
    [attach_component] returns or raises, and which error it raises, is the
    same for every direction string. *)
Theorem attach_component_accepts_any_direction (self : MoleculeBuilder)
    (parent_point component_name direction1 direction2 category : string) :
  fst (attach_component parent_point component_name direction1 category self)
    = fst (attach_component parent_point component_name direction2 category self).
Proof.
  rewrite !attach_component_run.
  destruct (attachment_points self !! parent_point); [|done].
  by destruct (component_registry category self !! component_name).
Qed.

(** X12. Two attachments at one point under one category: when the point
    is registered and both components are in the category's registry, both
    calls return and the point's sequence is the old one followed by the two
    pairs in call order, also when the two pairs are equal. *)
Theorem attach_component_twice (self : MoleculeBuilder)
    (parent_point name1 direction1 name2 direction2 category : string)
    (c1 c2 : MolecularComponent) :
  is_Some (attachment_points self !! parent_point) →
  component_registry category self !! name1 = Some c1 →
  component_registry category self !! name2 = Some c2 →
  ∃ self1 self2,
    attach_component parent_point name1 direction1 category self = (Ok tt, self1) ∧
    attach_component parent_point name2 direction2 category self1 = (Ok tt, self2) ∧
    sequence_at parent_point (attachment_map category (molecule self2))
      = sequence_at parent_point (attachment_map category (molecule self))
        ++ [(c1, direction1); (c2, direction2)].
Proof.
  intros [ap Hap] H1 H2.
  unfold component_registry, attachment_map in *.
  destruct (decide (category = "Sugar")) as [->|Hcat].
  - simpl in *. rewrite attach_component_sugar, Hap, H1.
    eexists _, _. split; [reflexivity|]. split.
    + rewrite attach_component_sugar. simpl. rewrite Hap, H2. reflexivity.
    + simpl. rewrite !sequence_at_set_eq. by rewrite <- app_assoc.
  - rewrite (eqb_Sugar_false _ Hcat) in *.
    rewrite attach_component_not_sugar, Hap, H1 by done.
    eexists _, _. split; [reflexivity|]. split.
    + rewrite attach_component_not_sugar by done. simpl. rewrite Hap, H2. reflexivity.
    + simpl. rewrite !sequence_at_set_eq. by rewrite <- app_assoc.
Qed.

Lemma attach_component_twice_witness :
  ∃ self1 self2,
    attach_component "Zero" "XYL" "Up" "Sugar" MoleculeBuilder_init = (Ok tt, self1) ∧
    attach_component "Zero" "XYL" "Up" "Sugar" self1 = (Ok tt, self2) ∧
    sequence_at "Zero" (attached_sugars (molecule self2))
      = [(mkComponent "XYL" "circle" "#228B22" "Xyl", "Up");
         (mkComponent "XYL" "circle" "#228B22" "Xyl", "Up")].
Proof.
  destruct (attach_component_twice MoleculeBuilder_init "Zero" "XYL" "Up" "XYL" "Up" "Sugar"
              (mkComponent "XYL" "circle" "#228B22" "Xyl")
              (mkComponent "XYL" "circle" "#228B22" "Xyl"))
    as (self1 & self2 & H1 & H2 & Hseq).
  - exists (mkPoint "Zero" (0, 0)%float). vm_compute. reflexivity.
  - vm_compute. reflexivity.
  - vm_compute. reflexivity.
  - exists self1, self2. split_and!; [exact H1 | exact H2 | exact Hseq].
Defined.

(** X13. Attaching a sugar and attaching under any other tag do not
    interfere: done in either order, each call has the outcome it has in the
    other order and the builder ends up the same. *)
Theorem attach_sugar_and_other_commute (self : MoleculeBuilder)
    (point1 name1 direction1 point2 name2 direction2 category : string) :
  category ≠ "Sugar" →
  let sugar := attach_component point1 name1 direction1 "Sugar" in
  let other := attach_component point2 name2 direction2 category in
  fst (other (snd (sugar self))) = fst (other self) ∧
  fst (sugar (snd (other self))) = fst (sugar self) ∧
  snd (other (snd (sugar self))) = snd (sugar (snd (other self))).
Proof.
  intros Hcat. simpl.
  rewrite !attach_component_sugar, !attach_component_not_sugar by done.
  destruct (attachment_points self !! point1) eqn:E1;
    destruct (attachment_points self !! point2) eqn:E2;
    destruct (sugars self !! name1) eqn:S1;
    destruct (substituents self !! name2) eqn:S2;
    simpl; rewrite ?E1, ?E2, ?S1, ?S2; simpl; done.
Qed.

Lemma attach_sugar_and_other_commute_witness :
  snd (attach_component "FRight" "OH" "Right" "Substituent"
         (snd (attach_component "Zero" "XYL" "Up" "Sugar" MoleculeBuilder_init)))
  = snd (attach_component "Zero" "XYL" "Up" "Sugar"
           (snd (attach_component "FRight" "OH" "Right" "Substituent"
                   MoleculeBuilder_init))).
Proof.
  apply (attach_sugar_and_other_commute MoleculeBuilder_init
           "Zero" "XYL" "Up" "FRight" "OH" "Right" "Substituent").
  discriminate.
Defined.

(** ** Calls and the figure *)

Lemma drawn_entries_insert points name0 ap d :
  points !! name0 = None →
  registered points d →
  flat_map (drawn_entry (<[name0 := ap]> points)) d = flat_map (drawn_entry points) d.
Proof.
  intros Hfresh. induction 1 as [|[k l] d [p Hp] Hd IH]; simpl; [done|].
  rewrite IH. f_equal. unfold drawn_entry. simpl in *.
  rewrite lookup_insert_ne; [done|]. congruence.
Qed.



(** X14. A new attachment point does not move anything already drawn: on a
    builder whose attachment maps name registered points only,
    [visualize_molecule] gives after [add_attachment_point], returned or
    raised, the figure it gave before. *)
Theorem add_attachment_point_keeps_picture (self : MoleculeBuilder) (name0 : string)
    (position0 : float * float) :
  registered (attachment_points self) (attached_sugars (molecule self)) →
  registered (attachment_points self) (attached_substituents (molecule self)) →
  fst (visualize_molecule (snd (add_attachment_point name0 position0 self)))
    = fst (visualize_molecule self).
Proof.
  intros Hsug Hsub. unfold add_attachment_point.
  destruct (attachment_points self !! name0) eqn:E; simpl; [done|].
  rewrite !visualize_molecule_run; simpl;
    try done; try by apply registered_insert.
  by rewrite !drawn_entries_insert.
Qed.

Lemma add_attachment_point_keeps_picture_witness :
  fst (visualize_molecule
         (snd (add_attachment_point "Top" (0, 3)%float
                 (after (fun _ => true) (AttachComponent "Zero" "XYL" "Up" "Sugar")
                    MoleculeBuilder_init))))
  = fst (visualize_molecule
           (after (fun _ => true) (AttachComponent "Zero" "XYL" "Up" "Sugar")
              MoleculeBuilder_init)).
Proof.
  apply (add_attachment_point_keeps_picture
           (after (fun _ => true) (AttachComponent "Zero" "XYL" "Up" "Sugar")
              MoleculeBuilder_init) "Top" (0, 3)%float).
  - vm_compute. repeat constructor. exists (mkPoint "Zero" (0, 0)%float). reflexivity.
  - vm_compute. constructor.
Defined.





(** X17. Defining a component and attaching it: with a valid shape, an
    accepted color, the tag Sugar or Substituent and a registered point,
    [add_component] followed by [attach_component] under the same name and
    tag both return, and the point's sequence is the old one followed by the
    component just defined, also when the name was registered before with
    another definition; what was attached earlier keeps the definition it was
    attached with. *)
Theorem add_then_attach_uses_new_definition (parses_named_or_hex : string → bool)
    (self : MoleculeBuilder)
    (parent_point name0 shape0 color0 label0 direction category : string) :
  shape0 = "hexagon" ∨ shape0 = "circle" →
  parses_named_or_hex color0 = true ∨ color0 = "none" →
  category = "Sugar" ∨ category = "Substituent" →
  is_Some (attachment_points self !! parent_point) →
  ∃ self1 self2,
    add_component parses_named_or_hex name0 shape0 color0 label0 category self
      = (Ok tt, self1) ∧
    attach_component parent_point name0 direction category self1 = (Ok tt, self2) ∧
    sequence_at parent_point (attachment_map category (molecule self2))
      = sequence_at parent_point (attachment_map category (molecule self))
        ++ [(mkComponent name0 shape0 color0 label0, direction)].
Proof.
  intros Hshape Hcolor Hcat [ap Hap].
  apply str_in_valid_shapes in Hshape.
  apply (plot_accepts_color_true parses_named_or_hex) in Hcolor.
  unfold add_component, attachment_map. rewrite Hshape, Hcolor. cbn [negb].
  destruct Hcat as [-> | ->]; cbn [String.eqb Ascii.eqb Bool.eqb].
  - eexists _, _. split; [reflexivity|].
    rewrite attach_component_sugar. simpl. rewrite Hap, lookup_insert_eq.
    split; [reflexivity|]. simpl. by rewrite sequence_at_set_eq.
  - eexists _, _. split; [reflexivity|].
    rewrite attach_component_not_sugar by discriminate.
    simpl. rewrite Hap, lookup_insert_eq.
    split; [reflexivity|]. simpl. by rewrite sequence_at_set_eq.
Qed.

Lemma add_then_attach_uses_new_definition_witness :
  ∃ self1 self2,
    add_component (fun _ => true) "XYL" "hexagon" "red" "X" "Sugar"
      (after (fun _ => true) (AttachComponent "Zero" "XYL" "Up" "Sugar")
         MoleculeBuilder_init) = (Ok tt, self1) ∧
    attach_component "Zero" "XYL" "Down" "Sugar" self1 = (Ok tt, self2) ∧
    sequence_at "Zero" (attached_sugars (molecule self2))
      = [(mkComponent "XYL" "circle" "#228B22" "Xyl", "Up");
         (mkComponent "XYL" "hexagon" "red" "X", "Down")].
Proof.
  destruct (add_then_attach_uses_new_definition (fun _ => true)
              (after (fun _ => true) (AttachComponent "Zero" "XYL" "Up" "Sugar")
                 MoleculeBuilder_init)
              "Zero" "XYL" "hexagon" "red" "X" "Down" "Sugar")
    as (self1 & self2 & H1 & H2 & Hseq).
  - left. reflexivity.
  - left. reflexivity.
  - left. reflexivity.
  - exists (mkPoint "Zero" (0, 0)%float). vm_compute. reflexivity.
  - exists self1, self2. split_and!; [exact H1 | exact H2 | exact Hseq].
Defined.
